(** * Tempus Fugit Minecraft: the player kinematics of [player.py]

    A shallow embedding of the [Player] class and a verification of its
    speed ladders, sight clamping, per-tick update and world-boundary clamp.

    Numbers.  Python's [int] and [float] values that take part in the
    kinematics are embedded in the real numbers [R]: an [int] literal [5]
    and a [float] literal [20.0] both denote a real, [==] is equality of
    reals, and [/] is real division.  Rounding, infinities and NaN are
    outside this model.  Quantities that the source types as [int] and
    only ever counts with (the strafe flags, mouse deltas, the player
    height handed to the collision checker) are kept in [Z]. *)

From Stdlib Require Import Reals Lra ZArith Lia List Bool.
Import ListNotations.
Open Scope R_scope.

(** ** The Python builtins and [math] functions the class calls *)

Module Py.

(** [max(a, b)]: the first argument is kept unless the second is
    strictly greater. *)
Definition max (a b : R) : R := if Rgt_dec b a then b else a.

(** [min(a, b)]: the first argument is kept unless the second is
    strictly smaller. *)
Definition min (a b : R) : R := if Rlt_dec b a then b else a.

(** [int(x)] on a float: truncation towards zero. *)
Definition int (x : R) : Z :=
  if Rle_dec 0 x then Int_part x else (- Int_part (- x))%Z.

(** [math.degrees] and [math.radians]. *)
Definition degrees (x : R) : R := x * (180 / PI).
Definition radians (x : R) : R := x * (PI / 180).

(** [math.atan2(y, x)]: the angle of the point [(x, y)], in
    [(-PI, PI]]; the first argument is the ordinate. *)
Definition atan2 (y x : R) : R :=
  if Rlt_dec 0 x then atan (y / x)
  else if Rlt_dec x 0 then
    (if Rle_dec 0 y then atan (y / x) + PI else atan (y / x) - PI)
  else if Rlt_dec 0 y then PI / 2
  else if Rlt_dec y 0 then - (PI / 2)
  else 0.

(** Truthiness of an [int], and [any] over the two-element strafe list. *)
Definition truthy (n : Z) : bool := negb (n =? 0)%Z.
Definition any2 (v : Z * Z) : bool := truthy (fst v) || truthy (snd v).

End Py.

(** ** Block catalogue *)

(** Modelled from the spec: [block.py] is not part of the sources at hand;
    the block kinds are the seven that [Player.__init__] places in the
    inventory, in that order. *)
Inductive Block : Set :=
| BRICK | GRASS | SAND | TREE_TRUNK | TREE_LEAVES | LIGHT_CLOUD | DARK_CLOUD.

(** ** Kinematic constants of [Player.__init__] *)

Definition MAX_JUMP_HEIGHT_IN_BLOCKS : R := 1.
Definition PLAYER_HEIGHT_IN_BLOCKS : Z := 2.
Definition MAX_FALL_SPEED_IN_BLOCKS_PER_SECOND : R := 50.
Definition FLYING_SPEED_IN_BLOCKS_PER_SECOND : R := 15.
Definition GRAVITY_IN_BLOCKS_PER_SECOND_SQUARED : R := 20.
Definition MAX_SPEED_IN_BLOCKS_PER_SECOND : R := 15.
Definition MIN_SPEED_IN_BLOCKS_PER_SECOND : R := 5.

Definition INITIAL_JUMP_SPEED_IN_BLOCKS_PER_SECOND : R :=
  IZR (Py.int (sqrt (2 * GRAVITY_IN_BLOCKS_PER_SECOND_SQUARED
                       * MAX_JUMP_HEIGHT_IN_BLOCKS))).
Definition MAX_JUMP_SPEED_IN_BLOCKS_PER_SECOND : R :=
  INITIAL_JUMP_SPEED_IN_BLOCKS_PER_SECOND + 10.
Definition MIN_JUMP_SPEED_IN_BLOCKS_PER_SECOND : R :=
  INITIAL_JUMP_SPEED_IN_BLOCKS_PER_SECOND.
Definition WALK_SPEED_IN_BLOCKS_PER_SECOND : R := 5.

(** ** The mutable state of a [Player] *)

Record Player : Type := mkPlayer {
  jump_speed_in_blocks_per_second : R;
  walking_speed_in_blocks_per_second : R;
  flying : bool;
  ascend : bool;
  descend : bool;
  strafe_unit_vector : Z * Z;
  position_in_blocks_from_origin : R * R * R;
  rotation_in_degrees : R * R;
  vertical_velocity_in_blocks_per_second : R;
  inventory : list Block;
  selected_block : Block
}.

(** [Player()] *)
Definition initial : Player := {|
  jump_speed_in_blocks_per_second := INITIAL_JUMP_SPEED_IN_BLOCKS_PER_SECOND;
  walking_speed_in_blocks_per_second := WALK_SPEED_IN_BLOCKS_PER_SECOND;
  flying := false;
  ascend := false;
  descend := false;
  strafe_unit_vector := (0, 0)%Z;
  position_in_blocks_from_origin := (0, 0, 0);
  rotation_in_degrees := (0, 0);
  vertical_velocity_in_blocks_per_second := 0;
  inventory := [BRICK; GRASS; SAND; TREE_TRUNK; TREE_LEAVES;
                LIGHT_CLOUD; DARK_CLOUD];
  selected_block := BRICK
|}.

(** Attribute assignments [self.f = v], one per attribute the methods
    below write. *)
Definition set_jump_speed (v : R) (p : Player) : Player :=
  mkPlayer v (walking_speed_in_blocks_per_second p)
           (flying p) (ascend p) (descend p) (strafe_unit_vector p)
           (position_in_blocks_from_origin p) (rotation_in_degrees p)
           (vertical_velocity_in_blocks_per_second p)
           (inventory p) (selected_block p).

Definition set_walking_speed (v : R) (p : Player) : Player :=
  mkPlayer (jump_speed_in_blocks_per_second p) v
           (flying p) (ascend p) (descend p) (strafe_unit_vector p)
           (position_in_blocks_from_origin p) (rotation_in_degrees p)
           (vertical_velocity_in_blocks_per_second p)
           (inventory p) (selected_block p).

Definition set_position (v : R * R * R) (p : Player) : Player :=
  mkPlayer (jump_speed_in_blocks_per_second p)
           (walking_speed_in_blocks_per_second p)
           (flying p) (ascend p) (descend p) (strafe_unit_vector p)
           v (rotation_in_degrees p)
           (vertical_velocity_in_blocks_per_second p)
           (inventory p) (selected_block p).

Definition set_rotation (v : R * R) (p : Player) : Player :=
  mkPlayer (jump_speed_in_blocks_per_second p)
           (walking_speed_in_blocks_per_second p)
           (flying p) (ascend p) (descend p) (strafe_unit_vector p)
           (position_in_blocks_from_origin p) v
           (vertical_velocity_in_blocks_per_second p)
           (inventory p) (selected_block p).

Definition set_vertical_velocity (v : R) (p : Player) : Player :=
  mkPlayer (jump_speed_in_blocks_per_second p)
           (walking_speed_in_blocks_per_second p)
           (flying p) (ascend p) (descend p) (strafe_unit_vector p)
           (position_in_blocks_from_origin p) (rotation_in_degrees p)
           v
           (inventory p) (selected_block p).

(** ** Methods of [Player] *)

(** A call either returns, or raises [AssertionError]; both carry the
    state of the object at that moment, so that what a failed call left
    behind can be observed. *)
Inductive outcome : Type :=
| Returned (p : Player)
| AssertionError (p : Player).

Definition state_of (o : outcome) : Player :=
  match o with Returned p => p | AssertionError p => p end.

Definition raises (o : outcome) : Prop :=
  match o with Returned _ => False | AssertionError _ => True end.

Definition get_motion_vector (p : Player) : R * R * R :=
  if Py.any2 (strafe_unit_vector p) then
    let '(x, y) := rotation_in_degrees p in
    let strafe :=
      Py.degrees (Py.atan2 (IZR (fst (strafe_unit_vector p)))
                           (IZR (snd (strafe_unit_vector p)))) in
    let y_angle := Py.radians y in
    let x_angle := Py.radians (x + strafe) in
    if flying p then
      let m := cos y_angle in
      let dy := sin y_angle in
      let '(dy, m) :=
        if Py.truthy (snd (strafe_unit_vector p)) then (0, 1) else (dy, m) in
      let dy :=
        if (fst (strafe_unit_vector p) >? 0)%Z then dy * -1 else dy in
      let dx := cos x_angle * m in
      let dz := sin x_angle * m in
      (dx, dy, dz)
    else
      let dy := 0 in
      let dx := cos x_angle in
      let dz := sin x_angle in
      (dx, dy, dz)
  else
    (0, 0, 0).

Definition increase_walk_speed (p : Player) : Player :=
  if Rle_dec (walking_speed_in_blocks_per_second p)
             MAX_SPEED_IN_BLOCKS_PER_SECOND
  then set_walking_speed
         (walking_speed_in_blocks_per_second p
          + WALK_SPEED_IN_BLOCKS_PER_SECOND) p
  else p.

Definition decrease_walk_speed (p : Player) : Player :=
  if Rgt_dec (walking_speed_in_blocks_per_second p)
             MIN_SPEED_IN_BLOCKS_PER_SECOND
  then set_walking_speed
         (walking_speed_in_blocks_per_second p
          - WALK_SPEED_IN_BLOCKS_PER_SECOND) p
  else p.

Definition increase_jump_speed (p : Player) : Player :=
  if Rle_dec (jump_speed_in_blocks_per_second p)
             MAX_JUMP_SPEED_IN_BLOCKS_PER_SECOND
  then set_jump_speed (jump_speed_in_blocks_per_second p + 5) p
  else p.

Definition decrease_jump_speed (p : Player) : Player :=
  if Rgt_dec (jump_speed_in_blocks_per_second p)
             MIN_JUMP_SPEED_IN_BLOCKS_PER_SECOND
  then set_jump_speed (jump_speed_in_blocks_per_second p - 5) p
  else p.

Definition move_forward (p : Player) : Player :=
  let '(a, b) := strafe_unit_vector p in
  mkPlayer (jump_speed_in_blocks_per_second p)
           (walking_speed_in_blocks_per_second p)
           (flying p) (ascend p) (descend p) ((a - 1)%Z, b)
           (position_in_blocks_from_origin p) (rotation_in_degrees p)
           (vertical_velocity_in_blocks_per_second p)
           (inventory p) (selected_block p).

Definition adjust_sight (dx dy : Z) (p : Player) : Player :=
  let '(x, y) := rotation_in_degrees p in
  let m := 0.15 in
  let x := IZR dx * m + x in
  let y := IZR dy * m + y in
  let y := Py.max (-90) (Py.min 90 y) in
  set_rotation (x, y) p.

Definition current_speed (p : Player) : R :=
  if flying p then FLYING_SPEED_IN_BLOCKS_PER_SECOND
  else walking_speed_in_blocks_per_second p.

Definition update (delta_time_in_seconds : R)
    (collision_checker : R * R * R -> Z -> R * R * R)
    (p : Player) : Player :=
  let speed := current_speed p in
  let d := delta_time_in_seconds * speed in
  let '(dx, dy, dz) := get_motion_vector p in
  let '(dx, dy, dz) := (dx * d, dy * d, dz * d) in
  let '(p, dy) :=
    if negb (flying p) then
      let p :=
        set_vertical_velocity
          (vertical_velocity_in_blocks_per_second p
           - delta_time_in_seconds * GRAVITY_IN_BLOCKS_PER_SECOND_SQUARED) p in
      let p :=
        set_vertical_velocity
          (Py.max (vertical_velocity_in_blocks_per_second p)
                  (- MAX_FALL_SPEED_IN_BLOCKS_PER_SECOND)) p in
      (p, dy + vertical_velocity_in_blocks_per_second p
               * delta_time_in_seconds)
    else
      let vertical_direction_modifier := 0 in
      let vertical_direction_modifier :=
        vertical_direction_modifier + (if ascend p then 1 else 0) in
      let vertical_direction_modifier :=
        vertical_direction_modifier - (if descend p then 1 else 0) in
      (p, dy + vertical_direction_modifier * delta_time_in_seconds
               * FLYING_SPEED_IN_BLOCKS_PER_SECOND)
  in
  let '(x, y, z) := position_in_blocks_from_origin p in
  set_position
    (collision_checker (x + dx, y + dy, z + dz) PLAYER_HEIGHT_IN_BLOCKS) p.

Definition keep_player_within_coordinates (dimension boundary_size : R) : R :=
  if Rgt_dec dimension boundary_size then boundary_size
  else if Rlt_dec dimension (- boundary_size) then - boundary_size
  else dimension.

Section WorldBoundary.

(** [World.WIDTH_FROM_ORIGIN_IN_BLOCKS]: [world.py] is not part of the
    sources at hand, so the half-width of the world is a parameter. *)
Variable WIDTH_FROM_ORIGIN_IN_BLOCKS : R.

Definition check_player_within_world_boundaries (p : Player) : Player :=
  let '(x, y, z) := position_in_blocks_from_origin p in
  let x := keep_player_within_coordinates x WIDTH_FROM_ORIGIN_IN_BLOCKS in
  let z := keep_player_within_coordinates z WIDTH_FROM_ORIGIN_IN_BLOCKS in
  set_position (x, y, z) p.

End WorldBoundary.

Definition slow_walking_speed (p : Player) : outcome :=
  if Req_dec_T (walking_speed_in_blocks_per_second p) 5 then
    let p := set_walking_speed (walking_speed_in_blocks_per_second p / 3) p in
    if Req_dec_T (walking_speed_in_blocks_per_second p) (5 / 3)
    then Returned p
    else AssertionError p
  else AssertionError p.

Definition reset_walking_speed (p : Player) : Player :=
  set_walking_speed 5 p.

Definition start_sprinting (p : Player) : Player :=
  set_walking_speed (walking_speed_in_blocks_per_second p * 2) p.

(** ** The remaining methods of [Player] *)

Definition set_strafe_unit_vector (v : Z * Z) (p : Player) : Player :=
  mkPlayer (jump_speed_in_blocks_per_second p)
           (walking_speed_in_blocks_per_second p)
           (flying p) (ascend p) (descend p) v
           (position_in_blocks_from_origin p) (rotation_in_degrees p)
           (vertical_velocity_in_blocks_per_second p)
           (inventory p) (selected_block p).

Definition set_flying (v : bool) (p : Player) : Player :=
  mkPlayer (jump_speed_in_blocks_per_second p)
           (walking_speed_in_blocks_per_second p)
           v (ascend p) (descend p) (strafe_unit_vector p)
           (position_in_blocks_from_origin p) (rotation_in_degrees p)
           (vertical_velocity_in_blocks_per_second p)
           (inventory p) (selected_block p).

Definition set_selected_block (v : Block) (p : Player) : Player :=
  mkPlayer (jump_speed_in_blocks_per_second p)
           (walking_speed_in_blocks_per_second p)
           (flying p) (ascend p) (descend p) (strafe_unit_vector p)
           (position_in_blocks_from_origin p) (rotation_in_degrees p)
           (vertical_velocity_in_blocks_per_second p)
           (inventory p) v.

Definition get_sight_vector (p : Player) : R * R * R :=
  let '(x, y) := rotation_in_degrees p in
  let m := cos (Py.radians y) in
  let dy := sin (Py.radians y) in
  let dx := cos (Py.radians (x - 90)) * m in
  let dz := sin (Py.radians (x - 90)) * m in
  (dx, dy, dz).

Definition move_backward (p : Player) : Player :=
  let '(a, b) := strafe_unit_vector p in
  set_strafe_unit_vector ((a + 1)%Z, b) p.

Definition move_left (p : Player) : Player :=
  let '(a, b) := strafe_unit_vector p in
  set_strafe_unit_vector (a, (b - 1)%Z) p.

Definition move_right (p : Player) : Player :=
  let '(a, b) := strafe_unit_vector p in
  set_strafe_unit_vector (a, (b + 1)%Z) p.

Definition jump (p : Player) : Player :=
  if Req_dec_T (vertical_velocity_in_blocks_per_second p) 0
  then set_vertical_velocity (jump_speed_in_blocks_per_second p) p
  else p.

(** [select_active_item] divides by the length of the inventory and
    indexes the inventory: it returns, or raises [ZeroDivisionError], or
    raises [IndexError]; nothing is assigned before either error. *)
Inductive selection : Type :=
| Selected (p : Player)
| ZeroDivisionError
| IndexError.

Definition select_active_item (index : Z) (p : Player) : selection :=
  match length (inventory p) with
  | O => ZeroDivisionError
  | S _ =>
      let selected_index :=
        (index mod Z.of_nat (length (inventory p)))%Z in
      if (selected_index <? - Z.of_nat (length (inventory p)))%Z
      then IndexError
      else
        let position :=
          if (selected_index <? 0)%Z
          then (selected_index + Z.of_nat (length (inventory p)))%Z
          else selected_index in
        match nth_error (inventory p) (Z.to_nat position) with
        | Some block => Selected (set_selected_block block p)
        | None => IndexError
        end
  end.

Definition stop_forward (p : Player) : Player :=
  let '(a, b) := strafe_unit_vector p in
  set_strafe_unit_vector ((a + 1)%Z, b) p.

Definition stop_backward (p : Player) : Player :=
  let '(a, b) := strafe_unit_vector p in
  set_strafe_unit_vector ((a - 1)%Z, b) p.

Definition stop_left (p : Player) : Player :=
  let '(a, b) := strafe_unit_vector p in
  set_strafe_unit_vector (a, (b + 1)%Z) p.

Definition stop_right (p : Player) : Player :=
  let '(a, b) := strafe_unit_vector p in
  set_strafe_unit_vector (a, (b - 1)%Z) p.

Definition toggle_flight (p : Player) : Player :=
  set_flying (negb (flying p)) p.

(** ** Sequences of calls *)

Inductive jump_call : Set := IncreaseJumpSpeed | DecreaseJumpSpeed.

Definition run_jump_call (c : jump_call) (p : Player) : Player :=
  match c with
  | IncreaseJumpSpeed => increase_jump_speed p
  | DecreaseJumpSpeed => decrease_jump_speed p
  end.

Definition run_jump_calls (cs : list jump_call) (p : Player) : Player :=
  fold_left (fun q c => run_jump_call c q) cs p.

Inductive speed_call : Set :=
| IncreaseWalkSpeed | DecreaseWalkSpeed | StartSprinting
| SlowWalkingSpeed | ResetWalkingSpeed.

Definition run_speed_call (c : speed_call) (p : Player) : outcome :=
  match c with
  | IncreaseWalkSpeed => Returned (increase_walk_speed p)
  | DecreaseWalkSpeed => Returned (decrease_walk_speed p)
  | StartSprinting => Returned (start_sprinting p)
  | SlowWalkingSpeed => slow_walking_speed p
  | ResetWalkingSpeed => Returned (reset_walking_speed p)
  end.

(** The states a fresh player can be brought to by the speed calls that
    [allowed] admits; a call that raises leaves the state it raised in. *)
Inductive reachable (allowed : speed_call -> bool) : Player -> Prop :=
| reachable_initial : reachable allowed initial
| reachable_call (c : speed_call) (p : Player) :
    allowed c = true ->
    reachable allowed p ->
    reachable allowed (state_of (run_speed_call c p)).

Definition every_speed_call (c : speed_call) : bool := true.

Definition ladder_call (c : speed_call) : bool :=
  match c with SlowWalkingSpeed => false | _ => true end.

(** [n] calls of [increase_walk_speed] in a row. *)
Fixpoint increase_walk_speed_times (n : nat) (p : Player) : Player :=
  match n with
  | O => p
  | S k => increase_walk_speed_times k (increase_walk_speed p)
  end.

(** ** The properties under study, as predicates on states *)

Definition jump_speed_within (lo hi : R) (p : Player) : Prop :=
  lo <= jump_speed_in_blocks_per_second p <= hi.

(** What a clamp of [v] to [[-W, W]] is to return, case by case. *)
Definition clamped_to (W v v' : R) : Prop :=
  (- W <= v <= W -> v' = v) /\ (v > W -> v' = W) /\ (v < - W -> v' = - W).

Definition boundary_clamp_cases (W : R) (p : Player) : Prop :=
  let '(x, y, z) := position_in_blocks_from_origin p in
  let '(x', y', z') :=
    position_in_blocks_from_origin
      (check_player_within_world_boundaries W p) in
  clamped_to W x x' /\ clamped_to W z z' /\ y' = y.

Definition on_jump_ladder (p : Player) : Prop :=
  let v := jump_speed_in_blocks_per_second p in
  v = 6 \/ v = 11 \/ v = 16 \/ v = 21.

Definition on_walk_ladder (p : Player) : Prop :=
  exists k : Z, (1 <= k)%Z /\
    walking_speed_in_blocks_per_second p = 5 * IZR k.

(** The motion vector of a grounded player whose strafe direction makes
    the angle [strafe_angle] (in radians) with the yaw. *)
Definition grounded_motion_vector (yaw strafe_angle : R) : R * R * R :=
  let x_angle := Py.radians (yaw + Py.degrees strafe_angle) in
  (cos x_angle, 0, sin x_angle).

(** ** A world and a call set used to state the further properties *)

(** The collision checker of a world without blocks. *)
Definition no_collision (position : R * R * R) (height : Z) : R * R * R :=
  position.

(** The speed calls that move along the ladder in steps. *)
Definition stepping_call (c : speed_call) : bool :=
  match c with
  | IncreaseWalkSpeed | DecreaseWalkSpeed | ResetWalkingSpeed => true
  | StartSprinting | SlowWalkingSpeed => false
  end.

(** * Verification *)

(** ** Facts about the builtins and the constants *)

Lemma py_max_Rmax (a b : R) : Py.max a b = Rmax a b.
Proof.
  unfold Py.max, Rmax.
  destruct (Rgt_dec b a), (Rle_dec a b); lra.
Qed.

Lemma py_min_Rmin (a b : R) : Py.min a b = Rmin a b.
Proof.
  unfold Py.min, Rmin.
  destruct (Rlt_dec b a), (Rle_dec a b); lra.
Qed.

Lemma sqrt_40_between : 6 <= sqrt 40 < 7.
Proof.
  split.
  - replace 6 with (sqrt (6 * 6)) by (apply sqrt_square; lra).
    apply sqrt_le_1_alt; lra.
  - replace 7 with (sqrt (7 * 7)) by (apply sqrt_square; lra).
    apply sqrt_lt_1_alt; lra.
Qed.

Lemma INITIAL_JUMP_SPEED_value : INITIAL_JUMP_SPEED_IN_BLOCKS_PER_SECOND = 6.
Proof.
  unfold INITIAL_JUMP_SPEED_IN_BLOCKS_PER_SECOND,
    GRAVITY_IN_BLOCKS_PER_SECOND_SQUARED, MAX_JUMP_HEIGHT_IN_BLOCKS, Py.int.
  replace (2 * 20 * 1) with 40 by lra.
  pose proof sqrt_40_between as [Hlo Hhi].
  destruct (Rle_dec 0 (sqrt 40)) as [_ | Hneg]; [| lra].
  f_equal. symmetry. apply Int_part_spec. lra.
Qed.

Lemma MIN_JUMP_SPEED_value : MIN_JUMP_SPEED_IN_BLOCKS_PER_SECOND = 6.
Proof. exact INITIAL_JUMP_SPEED_value. Qed.

Lemma MAX_JUMP_SPEED_value : MAX_JUMP_SPEED_IN_BLOCKS_PER_SECOND = 16.
Proof.
  unfold MAX_JUMP_SPEED_IN_BLOCKS_PER_SECOND.
  rewrite INITIAL_JUMP_SPEED_value. lra.
Qed.

(** ** The jump-speed ladder *)

Lemma increase_jump_speed_value (p : Player) :
  jump_speed_in_blocks_per_second (increase_jump_speed p) =
  if Rle_dec (jump_speed_in_blocks_per_second p) 16
  then jump_speed_in_blocks_per_second p + 5
  else jump_speed_in_blocks_per_second p.
Proof.
  unfold increase_jump_speed. rewrite MAX_JUMP_SPEED_value.
  destruct (Rle_dec _ 16); reflexivity.
Qed.

Lemma decrease_jump_speed_value (p : Player) :
  jump_speed_in_blocks_per_second (decrease_jump_speed p) =
  if Rgt_dec (jump_speed_in_blocks_per_second p) 6
  then jump_speed_in_blocks_per_second p - 5
  else jump_speed_in_blocks_per_second p.
Proof.
  unfold decrease_jump_speed. rewrite MIN_JUMP_SPEED_value.
  destruct (Rgt_dec _ 6); reflexivity.
Qed.

Lemma on_jump_ladder_initial : on_jump_ladder initial.
Proof. left. exact INITIAL_JUMP_SPEED_value. Qed.

Lemma on_jump_ladder_call (c : jump_call) (p : Player) :
  on_jump_ladder p -> on_jump_ladder (run_jump_call c p).
Proof.
  unfold on_jump_ladder. intros H. destruct c; simpl.
  - rewrite increase_jump_speed_value.
    destruct (Rle_dec (jump_speed_in_blocks_per_second p) 16); lra.
  - rewrite decrease_jump_speed_value.
    destruct (Rgt_dec (jump_speed_in_blocks_per_second p) 6); lra.
Qed.

Lemma on_jump_ladder_calls (cs : list jump_call) :
  forall p, on_jump_ladder p -> on_jump_ladder (run_jump_calls cs p).
Proof.
  induction cs as [| c cs IH]; intros p Hp; simpl.
  - exact Hp.
  - apply IH. now apply on_jump_ladder_call.
Qed.

(** C3, as stated, fails: three calls of [increase_jump_speed] on a fresh
    player leave the jump speed at 21, above [MAX_JUMP_SPEED] = 16. *)
Lemma jump_speed_exceeds_max_after_three_increases :
  ~ jump_speed_within MIN_JUMP_SPEED_IN_BLOCKS_PER_SECOND
      MAX_JUMP_SPEED_IN_BLOCKS_PER_SECOND
      (run_jump_calls
         [IncreaseJumpSpeed; IncreaseJumpSpeed; IncreaseJumpSpeed] initial).
Proof.
  unfold jump_speed_within, run_jump_calls. simpl.
  rewrite !increase_jump_speed_value. simpl.
  rewrite MAX_JUMP_SPEED_value, INITIAL_JUMP_SPEED_value.
  repeat (match goal with
          | |- context [Rle_dec ?a ?b] => destruct (Rle_dec a b); try lra
          end).
Qed.

(** C3, amended: [MIN_JUMP_SPEED] = 6 and [MAX_JUMP_SPEED] = 16; a fresh
    player has its jump speed in [[MIN_JUMP_SPEED, MAX_JUMP_SPEED]], and
    after every sequence of [increase_jump_speed] and [decrease_jump_speed]
    calls the jump speed lies in [[MIN_JUMP_SPEED, MAX_JUMP_SPEED + 5]]:
    the guard [jump_speed <= MAX_JUMP_SPEED] lets one step of 5 past the
    maximum and then blocks. *)
Theorem jump_speed_ladder_bounds :
  MIN_JUMP_SPEED_IN_BLOCKS_PER_SECOND = 6 /\
  MAX_JUMP_SPEED_IN_BLOCKS_PER_SECOND = 16 /\
  jump_speed_within MIN_JUMP_SPEED_IN_BLOCKS_PER_SECOND
    MAX_JUMP_SPEED_IN_BLOCKS_PER_SECOND initial /\
  forall cs : list jump_call,
    jump_speed_within MIN_JUMP_SPEED_IN_BLOCKS_PER_SECOND
      (MAX_JUMP_SPEED_IN_BLOCKS_PER_SECOND + 5)
      (run_jump_calls cs initial).
Proof.
  split; [exact MIN_JUMP_SPEED_value |].
  split; [exact MAX_JUMP_SPEED_value |].
  unfold jump_speed_within.
  rewrite MIN_JUMP_SPEED_value, MAX_JUMP_SPEED_value.
  split.
  - pose proof on_jump_ladder_initial as H. unfold on_jump_ladder in H.
    simpl in *. rewrite INITIAL_JUMP_SPEED_value. lra.
  - intros cs.
    pose proof (on_jump_ladder_calls cs initial on_jump_ladder_initial) as H.
    unfold on_jump_ladder in H. lra.
Qed.

(** ** The walk-speed ladder *)

Lemma increase_walk_speed_value (p : Player) :
  walking_speed_in_blocks_per_second (increase_walk_speed p) =
  if Rle_dec (walking_speed_in_blocks_per_second p) 15
  then walking_speed_in_blocks_per_second p + 5
  else walking_speed_in_blocks_per_second p.
Proof.
  unfold increase_walk_speed, MAX_SPEED_IN_BLOCKS_PER_SECOND,
    WALK_SPEED_IN_BLOCKS_PER_SECOND.
  destruct (Rle_dec _ 15); reflexivity.
Qed.

Lemma decrease_walk_speed_value (p : Player) :
  walking_speed_in_blocks_per_second (decrease_walk_speed p) =
  if Rgt_dec (walking_speed_in_blocks_per_second p) 5
  then walking_speed_in_blocks_per_second p - 5
  else walking_speed_in_blocks_per_second p.
Proof.
  unfold decrease_walk_speed, MIN_SPEED_IN_BLOCKS_PER_SECOND,
    WALK_SPEED_IN_BLOCKS_PER_SECOND.
  destruct (Rgt_dec _ 5); reflexivity.
Qed.

Lemma increase_walk_speed_from (v : R) (p : Player) :
  walking_speed_in_blocks_per_second p = v ->
  v <= 15 ->
  walking_speed_in_blocks_per_second (increase_walk_speed p) = v + 5.
Proof.
  intros Hv Hle. rewrite increase_walk_speed_value, Hv.
  destruct (Rle_dec v 15); [reflexivity | contradiction].
Qed.

Lemma increase_walk_speed_at_20 (p : Player) :
  walking_speed_in_blocks_per_second p = 20 ->
  increase_walk_speed p = p.
Proof.
  intros Hv. unfold increase_walk_speed, MAX_SPEED_IN_BLOCKS_PER_SECOND.
  rewrite Hv. destruct (Rle_dec 20 15); [lra | reflexivity].
Qed.

Lemma increase_walk_speed_times_at_20 (n : nat) (p : Player) :
  walking_speed_in_blocks_per_second p = 20 ->
  increase_walk_speed_times n p = p.
Proof.
  intros Hv. induction n as [| n IH]; simpl.
  - reflexivity.
  - rewrite (increase_walk_speed_at_20 p Hv). exact IH.
Qed.

Lemma increase_walk_speed_times_plus (n m : nat) (p : Player) :
  increase_walk_speed_times (n + m) p =
  increase_walk_speed_times m (increase_walk_speed_times n p).
Proof.
  revert p. induction n as [| n IH]; intros p; simpl.
  - reflexivity.
  - apply IH.
Qed.

(** C4: from a fresh player (walking speed 5) one, two and three calls of
    [increase_walk_speed] give 10, 15 and 20, and any number of further
    calls leaves the walking speed at exactly 20. *)
Theorem increase_walk_speed_sequence :
  walking_speed_in_blocks_per_second initial = 5 /\
  walking_speed_in_blocks_per_second
    (increase_walk_speed_times 1 initial) = 10 /\
  walking_speed_in_blocks_per_second
    (increase_walk_speed_times 2 initial) = 15 /\
  walking_speed_in_blocks_per_second
    (increase_walk_speed_times 3 initial) = 20 /\
  forall n : nat,
    walking_speed_in_blocks_per_second
      (increase_walk_speed_times (3 + n) initial) = 20.
Proof.
  assert (H0 : walking_speed_in_blocks_per_second initial = 5) by reflexivity.
  assert (H1 : walking_speed_in_blocks_per_second
                 (increase_walk_speed initial) = 10).
  { rewrite (increase_walk_speed_from 5) by (trivial; lra). lra. }
  assert (H2 : walking_speed_in_blocks_per_second
                 (increase_walk_speed (increase_walk_speed initial)) = 15).
  { rewrite (increase_walk_speed_from 10) by (trivial; lra). lra. }
  assert (H3 : walking_speed_in_blocks_per_second
                 (increase_walk_speed
                    (increase_walk_speed (increase_walk_speed initial))) = 20).
  { rewrite (increase_walk_speed_from 15) by (trivial; lra). lra. }
  repeat split; try assumption.
  intros n. rewrite increase_walk_speed_times_plus. simpl.
  rewrite increase_walk_speed_times_at_20; assumption.
Qed.

(** ** [slow_walking_speed] and its assertions *)

Lemma slow_walking_speed_at_5 (p : Player) :
  walking_speed_in_blocks_per_second p = 5 ->
  slow_walking_speed p = Returned (set_walking_speed (5 / 3) p).
Proof.
  intros Hv. unfold slow_walking_speed.
  destruct (Req_dec_T (walking_speed_in_blocks_per_second p) 5)
    as [_ | Hne]; [| contradiction].
  simpl. rewrite Hv.
  destruct (Req_dec_T (5 / 3) (5 / 3)) as [_ | Hne]; [reflexivity | lra].
Qed.

Lemma slow_walking_speed_not_5 (p : Player) :
  walking_speed_in_blocks_per_second p <> 5 ->
  slow_walking_speed p = AssertionError p.
Proof.
  intros Hv. unfold slow_walking_speed.
  destruct (Req_dec_T (walking_speed_in_blocks_per_second p) 5)
    as [He | _]; [contradiction | reflexivity].
Qed.

(** C7: [slow_walking_speed] raises exactly when the walking speed is not
    5 at the call, a call that raises leaves the player (and so the walking
    speed) as it was, and at walking speed 5 the call returns with the
    walking speed set to 5/3. *)
Theorem slow_walking_speed_contract (p : Player) :
  (raises (slow_walking_speed p) <->
   walking_speed_in_blocks_per_second p <> 5) /\
  (raises (slow_walking_speed p) ->
   state_of (slow_walking_speed p) = p /\
   walking_speed_in_blocks_per_second (state_of (slow_walking_speed p)) =
   walking_speed_in_blocks_per_second p) /\
  (walking_speed_in_blocks_per_second p = 5 ->
   ~ raises (slow_walking_speed p) /\
   walking_speed_in_blocks_per_second (state_of (slow_walking_speed p)) =
   5 / 3).
Proof.
  destruct (Req_dec_T (walking_speed_in_blocks_per_second p) 5) as [He | Hne].
  - rewrite (slow_walking_speed_at_5 p He). simpl.
    split; [tauto |]. split; [contradiction |].
    intros _. split; [exact (fun F => F) | reflexivity].
  - rewrite (slow_walking_speed_not_5 p Hne). simpl.
    split; [tauto |]. split; [intros _; split; reflexivity |].
    intros He. contradiction.
Qed.

(** ** [decrease_walk_speed] and the floor [MIN_SPEED] *)

Lemma on_walk_ladder_initial : on_walk_ladder initial.
Proof.
  exists 1%Z. split; [lia |].
  simpl. unfold WALK_SPEED_IN_BLOCKS_PER_SECOND. lra.
Qed.

Lemma on_walk_ladder_call (c : speed_call) (p : Player) :
  ladder_call c = true ->
  on_walk_ladder p ->
  on_walk_ladder (state_of (run_speed_call c p)).
Proof.
  intros Hc [k [Hk Hv]]. destruct c; simpl in *; try discriminate.
  - unfold on_walk_ladder. rewrite increase_walk_speed_value.
    destruct (Rle_dec (walking_speed_in_blocks_per_second p) 15).
    + exists (k + 1)%Z. split; [lia |]. rewrite plus_IZR, Hv. lra.
    + exists k. tauto.
  - unfold on_walk_ladder. rewrite decrease_walk_speed_value.
    destruct (Rgt_dec (walking_speed_in_blocks_per_second p) 5) as [Hgt | Hle].
    + exists (k - 1)%Z. split.
      * assert (1 < k)%Z; [| lia]. apply lt_IZR. lra.
      * rewrite minus_IZR, Hv. lra.
    + exists k. tauto.
  - exists (2 * k)%Z. split; [lia |]. rewrite mult_IZR.
    unfold start_sprinting. simpl. rewrite Hv. lra.
  - exists 1%Z. split; [lia |]. unfold reset_walking_speed. simpl. lra.
Qed.

Lemma reachable_on_walk_ladder (p : Player) :
  reachable ladder_call p -> on_walk_ladder p.
Proof.
  induction 1 as [| c p Hc _ IH].
  - exact on_walk_ladder_initial.
  - now apply on_walk_ladder_call.
Qed.

(** C5, as stated, fails: [slow_walking_speed] followed by two
    [start_sprinting] calls brings a fresh player to walking speed 20/3,
    from where [decrease_walk_speed] goes to 5/3, below [MIN_SPEED]. *)
Lemma decrease_walk_speed_below_min_after_slow :
  ~ (forall p : Player,
       reachable every_speed_call p ->
       MIN_SPEED_IN_BLOCKS_PER_SECOND <=
       walking_speed_in_blocks_per_second (decrease_walk_speed p)).
Proof.
  intros H.
  pose (p1 := state_of (run_speed_call SlowWalkingSpeed initial)).
  pose (p2 := state_of (run_speed_call StartSprinting p1)).
  pose (p3 := state_of (run_speed_call StartSprinting p2)).
  assert (R3 : reachable every_speed_call p3).
  { repeat (apply reachable_call; [reflexivity |]). apply reachable_initial. }
  specialize (H p3 R3). revert H.
  rewrite decrease_walk_speed_value.
  assert (Hv : walking_speed_in_blocks_per_second p3 = 5 / 3 * 2 * 2).
  { unfold p3, p2, p1. simpl.
    rewrite (slow_walking_speed_at_5 initial) by reflexivity. reflexivity. }
  rewrite Hv. unfold MIN_SPEED_IN_BLOCKS_PER_SECOND.
  destruct (Rgt_dec (5 / 3 * 2 * 2) 5); lra.
Qed.

(** C5, amended: in every state reachable from a fresh player by
    [increase_walk_speed], [decrease_walk_speed], [start_sprinting] and
    [reset_walking_speed] (without [slow_walking_speed]), a call of
    [decrease_walk_speed] subtracts the increment exactly when the walking
    speed is above [MIN_SPEED], leaves the player untouched otherwise, and
    its result is never below [MIN_SPEED] = 5. *)
Theorem decrease_walk_speed_floor (p : Player) :
  reachable ladder_call p ->
  (walking_speed_in_blocks_per_second p > MIN_SPEED_IN_BLOCKS_PER_SECOND ->
   walking_speed_in_blocks_per_second (decrease_walk_speed p) =
   walking_speed_in_blocks_per_second p - WALK_SPEED_IN_BLOCKS_PER_SECOND) /\
  (walking_speed_in_blocks_per_second p <= MIN_SPEED_IN_BLOCKS_PER_SECOND ->
   decrease_walk_speed p = p) /\
  MIN_SPEED_IN_BLOCKS_PER_SECOND <=
  walking_speed_in_blocks_per_second (decrease_walk_speed p) /\
  MIN_SPEED_IN_BLOCKS_PER_SECOND = 5.
Proof.
  intros Hr.
  pose proof (on_walk_ladder_call DecreaseWalkSpeed p eq_refl
                (reachable_on_walk_ladder p Hr)) as [k [Hk Hv]].
  simpl in Hv.
  unfold MIN_SPEED_IN_BLOCKS_PER_SECOND, WALK_SPEED_IN_BLOCKS_PER_SECOND.
  repeat split.
  - intros Hgt. rewrite decrease_walk_speed_value.
    destruct (Rgt_dec (walking_speed_in_blocks_per_second p) 5);
      [reflexivity | contradiction].
  - intros Hle. unfold decrease_walk_speed, MIN_SPEED_IN_BLOCKS_PER_SECOND.
    destruct (Rgt_dec (walking_speed_in_blocks_per_second p) 5);
      [lra | reflexivity].
  - rewrite Hv. apply IZR_le in Hk. lra.
Qed.

Lemma decrease_walk_speed_floor_witness :
  reachable ladder_call (increase_walk_speed initial) /\
  MIN_SPEED_IN_BLOCKS_PER_SECOND <=
  walking_speed_in_blocks_per_second
    (decrease_walk_speed (increase_walk_speed initial)).
Proof.
  assert (Hr : reachable ladder_call (increase_walk_speed initial)).
  { apply (reachable_call ladder_call IncreaseWalkSpeed initial);
      [reflexivity | apply reachable_initial]. }
  split; [exact Hr |].
  apply (decrease_walk_speed_floor (increase_walk_speed initial) Hr).
Defined.

(** ** Sight adjustment *)

(** Decide every real comparison the goal branches on, then finish by
    linear arithmetic. *)
Ltac comparison_free t :=
  lazymatch t with
  | context [Rgt_dec _ _] => fail
  | context [Rlt_dec _ _] => fail
  | context [Rle_dec _ _] => fail
  | _ => idtac
  end.

Ltac decide_comparisons :=
  repeat match goal with
    | |- context [Rgt_dec ?a ?b] =>
        comparison_free a; comparison_free b; destruct (Rgt_dec a b)
    | |- context [Rlt_dec ?a ?b] =>
        comparison_free a; comparison_free b; destruct (Rlt_dec a b)
    | |- context [Rle_dec ?a ?b] =>
        comparison_free a; comparison_free b; destruct (Rle_dec a b)
    end;
  try lra.

Lemma clamp_pitch_above (y : R) :
  90 <= y -> Py.max (-90) (Py.min 90 y) = 90.
Proof. intros H. unfold Py.max, Py.min. decide_comparisons. Qed.

Lemma clamp_pitch_below (y : R) :
  y <= -90 -> Py.max (-90) (Py.min 90 y) = -90.
Proof. intros H. unfold Py.max, Py.min. decide_comparisons. Qed.

Lemma clamp_pitch_inside (y : R) :
  -90 <= y <= 90 -> Py.max (-90) (Py.min 90 y) = y.
Proof. intros H. unfold Py.max, Py.min. decide_comparisons. Qed.

Lemma adjust_sight_rotation (dx dy : Z) (p : Player) :
  rotation_in_degrees (adjust_sight dx dy p) =
  (IZR dx * 0.15 + fst (rotation_in_degrees p),
   Py.max (-90) (Py.min 90 (IZR dy * 0.15 + snd (rotation_in_degrees p)))).
Proof.
  unfold adjust_sight. destruct (rotation_in_degrees p) as [x y].
  reflexivity.
Qed.

(** C6, as stated, fails: after [adjust_sight(0, 700)] has clamped the
    pitch of a fresh player to 90, [adjust_sight(0, -700)] moves it by
    -105 to -15, which is not -90. *)
Lemma adjust_sight_up_then_down_pitch_not_minus_90 :
  snd (rotation_in_degrees
         (adjust_sight 0 (-700) (adjust_sight 0 700 initial))) <> -90.
Proof.
  rewrite !adjust_sight_rotation. simpl.
  rewrite (clamp_pitch_above (700 * 0.15 + 0)) by lra.
  rewrite (clamp_pitch_inside (-700 * 0.15 + 90)) by lra.
  lra.
Qed.

(** C6, amended: from pitch 0, [adjust_sight(0, 700)] yields pitch exactly
    90 and [adjust_sight(0, -700)] yields pitch exactly -90 (the pitch is
    clamped to [[-90, 90]] in both directions); called one after the other
    on the same player, the second call yields pitch -15.  The yaw is
    unchanged by all of these calls. *)
Theorem adjust_sight_pitch_clamped (p : Player) (yaw : R) :
  rotation_in_degrees p = (yaw, 0) ->
  rotation_in_degrees (adjust_sight 0 700 p) = (yaw, 90) /\
  rotation_in_degrees (adjust_sight 0 (-700) p) = (yaw, -90) /\
  rotation_in_degrees (adjust_sight 0 (-700) (adjust_sight 0 700 p)) =
  (yaw, -15).
Proof.
  intros Hrot.
  assert (Hup : rotation_in_degrees (adjust_sight 0 700 p) = (yaw, 90)).
  { rewrite adjust_sight_rotation, Hrot. simpl.
    rewrite clamp_pitch_above by lra. f_equal. lra. }
  split; [exact Hup |]. split.
  - rewrite adjust_sight_rotation, Hrot. simpl.
    rewrite clamp_pitch_below by lra. f_equal. lra.
  - rewrite adjust_sight_rotation, Hup. simpl.
    rewrite clamp_pitch_inside by lra. f_equal; lra.
Qed.

Lemma adjust_sight_pitch_clamped_witness :
  rotation_in_degrees initial = (0, 0) /\
  rotation_in_degrees (adjust_sight 0 700 initial) = (0, 90).
Proof.
  split; [reflexivity |].
  apply (adjust_sight_pitch_clamped initial 0). reflexivity.
Defined.

(** ** The world-boundary clamp *)

Lemma keep_player_within_coordinates_cases (d b : R) :
  0 <= b -> clamped_to b d (keep_player_within_coordinates d b).
Proof.
  intros Hb. unfold clamped_to, keep_player_within_coordinates.
  repeat split; intros H; decide_comparisons.
Qed.

(** C8: for every position [(x, y, z)] and every boundary [W], the
    half-width of the world and so not negative,
    [check_player_within_world_boundaries] returns, independently for [x]
    and [z], the value itself when it lies in [[-W, W]], [W] when it
    exceeds [W] and [-W] when it is below [-W]; [y] is not modified. *)
Theorem boundary_clamp_correct (W : R) (p : Player) :
  0 <= W -> boundary_clamp_cases W p.
Proof.
  intros HW. unfold boundary_clamp_cases, check_player_within_world_boundaries.
  destruct (position_in_blocks_from_origin p) as [[x y] z]. simpl.
  repeat split; try (apply keep_player_within_coordinates_cases; exact HW).
Qed.

Lemma boundary_clamp_correct_witness :
  0 <= 80 /\
  boundary_clamp_cases 80 (set_position (100, 3, -200) initial).
Proof.
  split; [lra |].
  apply (boundary_clamp_correct 80 (set_position (100, 3, -200) initial)).
  lra.
Defined.

(** C10: for a boundary size [b >= 0], clamping a clamped value changes
    nothing, and the clamped value lies in [[-b, b]]. *)
Theorem keep_player_within_coordinates_idempotent (d b : R) :
  0 <= b ->
  keep_player_within_coordinates (keep_player_within_coordinates d b) b =
  keep_player_within_coordinates d b /\
  - b <= keep_player_within_coordinates d b <= b.
Proof.
  intros Hb. unfold keep_player_within_coordinates.
  split; decide_comparisons.
Qed.

Lemma keep_player_within_coordinates_idempotent_witness :
  0 <= 80 /\
  keep_player_within_coordinates (keep_player_within_coordinates 100 80) 80 =
  keep_player_within_coordinates 100 80.
Proof.
  split; [lra |].
  apply (keep_player_within_coordinates_idempotent 100 80). lra.
Defined.

(** ** The per-tick update *)

Lemma update_vertical_velocity (dt : R)
    (cc : R * R * R -> Z -> R * R * R) (p : Player) :
  vertical_velocity_in_blocks_per_second (update dt cc p) =
  if flying p then vertical_velocity_in_blocks_per_second p
  else Py.max (vertical_velocity_in_blocks_per_second p
               - dt * GRAVITY_IN_BLOCKS_PER_SECOND_SQUARED)
              (- MAX_FALL_SPEED_IN_BLOCKS_PER_SECOND).
Proof.
  unfold update.
  destruct (get_motion_vector p) as [[dx dy] dz].
  destruct (flying p); simpl;
    destruct (position_in_blocks_from_origin p) as [[x y] z]; reflexivity.
Qed.

(** C2: for a player that is not flying and a positive time step, the
    vertical velocity after [update] is
    [max (old - delta_time * GRAVITY) (- MAX_FALL_SPEED)], and so it is at
    least [- MAX_FALL_SPEED] = -50. *)
Theorem update_integrates_gravity (dt : R)
    (cc : R * R * R -> Z -> R * R * R) (p : Player) :
  flying p = false ->
  0 < dt ->
  vertical_velocity_in_blocks_per_second (update dt cc p) =
  Rmax (vertical_velocity_in_blocks_per_second p
        - dt * GRAVITY_IN_BLOCKS_PER_SECOND_SQUARED)
       (- MAX_FALL_SPEED_IN_BLOCKS_PER_SECOND) /\
  - MAX_FALL_SPEED_IN_BLOCKS_PER_SECOND <=
  vertical_velocity_in_blocks_per_second (update dt cc p) /\
  - MAX_FALL_SPEED_IN_BLOCKS_PER_SECOND = -50.
Proof.
  intros Hfly Hdt.
  rewrite update_vertical_velocity, Hfly, py_max_Rmax.
  split; [reflexivity |]. split.
  - apply Rmax_r.
  - unfold MAX_FALL_SPEED_IN_BLOCKS_PER_SECOND. lra.
Qed.

Lemma update_integrates_gravity_witness :
  flying initial = false /\ 0 < 1 /\
  vertical_velocity_in_blocks_per_second
    (update 1 (fun position _ => position) initial) =
  Rmax (vertical_velocity_in_blocks_per_second initial
        - 1 * GRAVITY_IN_BLOCKS_PER_SECOND_SQUARED)
       (- MAX_FALL_SPEED_IN_BLOCKS_PER_SECOND).
Proof.
  split; [reflexivity |]. split; [lra |].
  apply (update_integrates_gravity 1 (fun position _ => position) initial);
    [reflexivity | lra].
Defined.

(** C9: [update] writes the position and the vertical velocity and nothing
    else: rotation, strafe intent, the flying, ascend and descend flags,
    walking speed, jump speed, inventory and selected block are as before,
    and for a flying player the vertical velocity is as before too. *)
Theorem update_frame (dt : R)
    (cc : R * R * R -> Z -> R * R * R) (p : Player) :
  rotation_in_degrees (update dt cc p) = rotation_in_degrees p /\
  strafe_unit_vector (update dt cc p) = strafe_unit_vector p /\
  flying (update dt cc p) = flying p /\
  ascend (update dt cc p) = ascend p /\
  descend (update dt cc p) = descend p /\
  walking_speed_in_blocks_per_second (update dt cc p) =
    walking_speed_in_blocks_per_second p /\
  jump_speed_in_blocks_per_second (update dt cc p) =
    jump_speed_in_blocks_per_second p /\
  inventory (update dt cc p) = inventory p /\
  selected_block (update dt cc p) = selected_block p /\
  (flying p = true ->
   vertical_velocity_in_blocks_per_second (update dt cc p) =
   vertical_velocity_in_blocks_per_second p).
Proof.
  assert (Hvv := update_vertical_velocity dt cc p).
  revert Hvv. unfold update.
  destruct (get_motion_vector p) as [[dx dy] dz].
  destruct (flying p) eqn:Hfly; simpl;
    destruct (position_in_blocks_from_origin p) as [[x y] z]; simpl;
    intros Hvv; repeat split; try assumption; try reflexivity;
    intros; try discriminate; try assumption.
Qed.

(** ** The motion vector *)

Lemma any2_nonzero (v : Z * Z) : v <> (0, 0)%Z -> Py.any2 v = true.
Proof.
  destruct v as [a b]. intros Hv. unfold Py.any2, Py.truthy. simpl.
  destruct (a =? 0)%Z eqn:Ha; [| reflexivity].
  destruct (b =? 0)%Z eqn:Hb; [| reflexivity].
  apply Z.eqb_eq in Ha, Hb. subst. contradiction.
Qed.

Lemma atan2_down (x : R) : x = 0 -> Py.atan2 (-1) x = - (PI / 2).
Proof. intros ->. unfold Py.atan2. decide_comparisons. Qed.

Lemma atan2_left (y : R) : y = 0 -> Py.atan2 y (-1) = PI.
Proof.
  intros ->. unfold Py.atan2. decide_comparisons.
  replace (0 / -1) with 0 by lra. rewrite atan_0. lra.
Qed.

Lemma radians_degrees (yaw a : R) :
  yaw = 0 -> Py.radians (yaw + Py.degrees a) = a.
Proof.
  intros ->. unfold Py.radians, Py.degrees. field. exact PI_neq0.
Qed.

Lemma get_motion_vector_grounded_eq (p : Player) :
  flying p = false ->
  strafe_unit_vector p <> (0, 0)%Z ->
  get_motion_vector p =
  grounded_motion_vector (fst (rotation_in_degrees p))
    (Py.atan2 (IZR (fst (strafe_unit_vector p)))
              (IZR (snd (strafe_unit_vector p)))).
Proof.
  intros Hfly Hs. unfold get_motion_vector, grounded_motion_vector.
  rewrite (any2_nonzero _ Hs), Hfly.
  destruct (rotation_in_degrees p) as [x y]. reflexivity.
Qed.

(** Walking forward on a fresh player goes along the negative z axis, as
    the sight vector does. *)
Lemma get_motion_vector_forward :
  get_motion_vector (move_forward initial) = (0, 0, -1).
Proof.
  rewrite get_motion_vector_grounded_eq by (simpl; congruence).
  unfold grounded_motion_vector.
  change (strafe_unit_vector (move_forward initial)) with ((-1)%Z, 0%Z).
  change (rotation_in_degrees (move_forward initial)) with (0, 0).
  cbv [fst snd].
  rewrite atan2_down by reflexivity.
  rewrite radians_degrees by reflexivity.
  rewrite cos_neg, sin_neg, cos_PI2, sin_PI2. reflexivity.
Qed.

(** C1, as stated, fails: with the strafe angle taken as
    [atan2(strafe[1], strafe[0])], a fresh grounded player walking forward
    (strafe [(-1, 0)], yaw 0) would move along [(-1, 0, 0)]; the code moves
    it along [(0, 0, -1)]. *)
Lemma motion_vector_not_atan2_of_lateral_over_forward :
  flying (move_forward initial) = false /\
  strafe_unit_vector (move_forward initial) <> (0, 0)%Z /\
  get_motion_vector (move_forward initial) <>
  grounded_motion_vector
    (fst (rotation_in_degrees (move_forward initial)))
    (Py.atan2 (IZR (snd (strafe_unit_vector (move_forward initial))))
              (IZR (fst (strafe_unit_vector (move_forward initial))))).
Proof.
  split; [reflexivity |]. split; [simpl; congruence |].
  rewrite get_motion_vector_forward.
  unfold grounded_motion_vector.
  change (strafe_unit_vector (move_forward initial)) with ((-1)%Z, 0%Z).
  change (rotation_in_degrees (move_forward initial)) with (0, 0).
  cbv [fst snd].
  rewrite atan2_left by reflexivity.
  rewrite radians_degrees by reflexivity.
  rewrite cos_PI, sin_PI.
  intros H. apply (f_equal (fun v : R * R * R => fst (fst v))) in H.
  simpl in H. lra.
Qed.

(** C1, amended: for every rotation [(yaw, pitch)] and every nonzero strafe
    intent, [get_motion_vector] of a player that is not flying is
    [(cos x_angle, 0, sin x_angle)] with
    [x_angle = radians (yaw + degrees (atan2 (strafe[0], strafe[1])))]:
    the forward/back component is the first argument of [atan2] and the
    lateral component the second. *)
Theorem get_motion_vector_grounded (p : Player) :
  flying p = false ->
  strafe_unit_vector p <> (0, 0)%Z ->
  let yaw := fst (rotation_in_degrees p) in
  let x_angle :=
    Py.radians
      (yaw + Py.degrees (Py.atan2 (IZR (fst (strafe_unit_vector p)))
                                  (IZR (snd (strafe_unit_vector p))))) in
  get_motion_vector p = (cos x_angle, 0, sin x_angle).
Proof.
  intros Hfly Hs yaw x_angle.
  rewrite (get_motion_vector_grounded_eq p Hfly Hs). reflexivity.
Qed.

Lemma get_motion_vector_grounded_witness :
  flying (move_forward initial) = false /\
  strafe_unit_vector (move_forward initial) <> (0, 0)%Z /\
  get_motion_vector (move_forward initial) =
  (cos (Py.radians (0 + Py.degrees (Py.atan2 (-1) 0))), 0,
   sin (Py.radians (0 + Py.degrees (Py.atan2 (-1) 0)))).
Proof.
  assert (Hfly : flying (move_forward initial) = false) by reflexivity.
  assert (Hs : strafe_unit_vector (move_forward initial) <> (0, 0)%Z)
    by (simpl; congruence).
  split; [exact Hfly |]. split; [exact Hs |].
  exact (get_motion_vector_grounded (move_forward initial) Hfly Hs).
Defined.

(** * Further properties of the class *)

(** ** Sight and motion vectors *)

Lemma degrees_PI : Py.degrees PI = 180.
Proof. unfold Py.degrees. field. exact PI_neq0. Qed.

Lemma degrees_opp (a : R) : Py.degrees (- a) = - Py.degrees a.
Proof. unfold Py.degrees. lra. Qed.

Lemma degrees_half_PI : Py.degrees (PI / 2) = 90.
Proof. unfold Py.degrees. field. exact PI_neq0. Qed.

Lemma atan2_up (x : R) : x = 0 -> Py.atan2 1 x = PI / 2.
Proof. intros ->. unfold Py.atan2. decide_comparisons. Qed.

Lemma atan2_right (y : R) : y = 0 -> Py.atan2 y 1 = 0.
Proof.
  intros ->. unfold Py.atan2. decide_comparisons.
  replace (0 / 1) with 0 by lra. exact atan_0.
Qed.

(** The angle, in radians, of the four axis strafes relative to the yaw. *)
Lemma x_angle_forward (x : R) :
  Py.radians (x + Py.degrees (Py.atan2 (IZR (-1)) (IZR 0))) =
  Py.radians (x - 90).
Proof.
  rewrite atan2_down by reflexivity.
  rewrite degrees_opp, degrees_half_PI. reflexivity.
Qed.

Lemma x_angle_backward (x : R) :
  Py.radians (x + Py.degrees (Py.atan2 (IZR 1) (IZR 0))) =
  Py.radians (x - 90) + PI.
Proof.
  rewrite atan2_up by reflexivity.
  rewrite degrees_half_PI. unfold Py.radians. lra.
Qed.

Lemma x_angle_right (x : R) :
  Py.radians (x + Py.degrees (Py.atan2 (IZR 0) (IZR 1))) = Py.radians x.
Proof.
  rewrite atan2_right by reflexivity.
  unfold Py.degrees, Py.radians. lra.
Qed.

Lemma x_angle_left (x : R) :
  Py.radians (x + Py.degrees (Py.atan2 (IZR 0) (IZR (-1)))) =
  Py.radians x + PI.
Proof.
  rewrite atan2_left by reflexivity.
  rewrite degrees_PI. unfold Py.radians. lra.
Qed.

(** X4: a flying player that strafes straight forward moves exactly along
    its sight vector, whatever the yaw and the pitch. *)
Theorem flying_follows_sight (p : Player) :
  flying p = true ->
  strafe_unit_vector p = (-1, 0)%Z ->
  get_motion_vector p = get_sight_vector p.
Proof.
  intros Hfly Hs. unfold get_motion_vector, get_sight_vector.
  rewrite Hfly, Hs. destruct (rotation_in_degrees p) as [x y].
  cbn [Py.any2 Py.truthy fst snd Z.eqb Z.gtb Z.compare negb orb].
  rewrite x_angle_forward. reflexivity.
Qed.

Lemma flying_follows_sight_witness :
  flying (toggle_flight (move_forward initial)) = true /\
  strafe_unit_vector (toggle_flight (move_forward initial)) = (-1, 0)%Z /\
  get_motion_vector (toggle_flight (move_forward initial)) =
  get_sight_vector (toggle_flight (move_forward initial)).
Proof.
  split; [reflexivity |]. split; [reflexivity |].
  apply (flying_follows_sight (toggle_flight (move_forward initial)));
    reflexivity.
Defined.

(** X5: on the ground, strafing forward, backward, right and left moves
    the player horizontally at the angles [yaw - 90], [yaw + 90], [yaw] and
    [yaw + 180] degrees, whatever the pitch. *)
Theorem grounded_axis_directions (p : Player) (yaw pitch : R) :
  flying p = false ->
  rotation_in_degrees p = (yaw, pitch) ->
  (strafe_unit_vector p = (-1, 0)%Z ->
   get_motion_vector p =
   (cos (Py.radians (yaw - 90)), 0, sin (Py.radians (yaw - 90)))) /\
  (strafe_unit_vector p = (1, 0)%Z ->
   get_motion_vector p =
   (cos (Py.radians (yaw + 90)), 0, sin (Py.radians (yaw + 90)))) /\
  (strafe_unit_vector p = (0, 1)%Z ->
   get_motion_vector p = (cos (Py.radians yaw), 0, sin (Py.radians yaw))) /\
  (strafe_unit_vector p = (0, -1)%Z ->
   get_motion_vector p =
   (cos (Py.radians (yaw + 180)), 0, sin (Py.radians (yaw + 180)))).
Proof.
  intros Hfly Hrot. unfold get_motion_vector. rewrite Hfly, Hrot.
  repeat split; intros ->;
    cbn [Py.any2 Py.truthy fst snd Z.eqb negb orb].
  - rewrite x_angle_forward. reflexivity.
  - rewrite x_angle_backward.
    replace (Py.radians (yaw + 90)) with (Py.radians (yaw - 90) + PI)
      by (unfold Py.radians; lra).
    reflexivity.
  - rewrite x_angle_right. reflexivity.
  - rewrite x_angle_left.
    replace (Py.radians (yaw + 180)) with (Py.radians yaw + PI)
      by (unfold Py.radians; lra).
    reflexivity.
Qed.

Lemma grounded_axis_directions_witness :
  flying (move_forward initial) = false /\
  rotation_in_degrees (move_forward initial) = (0, 0) /\
  get_motion_vector (move_forward initial) =
  (cos (Py.radians (0 - 90)), 0, sin (Py.radians (0 - 90))).
Proof.
  split; [reflexivity |]. split; [reflexivity |].
  apply (grounded_axis_directions (move_forward initial) 0 0);
    reflexivity.
Defined.

(** ** Strafe keys, flight toggle and jump *)

Lemma player_eta (p : Player) :
  mkPlayer (jump_speed_in_blocks_per_second p)
           (walking_speed_in_blocks_per_second p)
           (flying p) (ascend p) (descend p) (strafe_unit_vector p)
           (position_in_blocks_from_origin p) (rotation_in_degrees p)
           (vertical_velocity_in_blocks_per_second p)
           (inventory p) (selected_block p) = p.
Proof. destruct p. reflexivity. Qed.

(** Closes a goal [stop (move p) = p] once [p] is a constructor term. *)
Ltac strafe_round_trip :=
  cbv [move_forward move_backward move_left move_right
       stop_forward stop_backward stop_left stop_right
       set_strafe_unit_vector strafe_unit_vector
       jump_speed_in_blocks_per_second walking_speed_in_blocks_per_second
       flying ascend descend position_in_blocks_from_origin
       rotation_in_degrees vertical_velocity_in_blocks_per_second
       inventory selected_block];
  f_equal; f_equal; lia.

(** X7: every [stop_*] call undoes the matching [move_*] call on any
    player, and the other way round, so a key press followed by its
    release leaves the player as it was. *)
Theorem stop_undoes_move (p : Player) :
  (stop_forward (move_forward p) = p /\
   stop_backward (move_backward p) = p /\
   stop_left (move_left p) = p /\
   stop_right (move_right p) = p) /\
  (move_forward (stop_forward p) = p /\
   move_backward (stop_backward p) = p /\
   move_left (stop_left p) = p /\
   move_right (stop_right p) = p).
Proof.
  destruct p as [js ws fl asc desc [a b] pos rot vv inv sel].
  repeat split; strafe_round_trip.
Qed.

(** X8: presses of different keys can be applied in either order, and
    pressing forward and backward together (or left and right together)
    cancels out. *)
Theorem strafe_keys_commute_and_cancel (p : Player) :
  move_forward (move_left p) = move_left (move_forward p) /\
  move_forward (move_right p) = move_right (move_forward p) /\
  move_backward (move_left p) = move_left (move_backward p) /\
  move_backward (move_right p) = move_right (move_backward p) /\
  move_backward (move_forward p) = p /\
  move_right (move_left p) = p.
Proof.
  destruct p as [js ws fl asc desc [a b] pos rot vv inv sel].
  repeat split; try reflexivity; strafe_round_trip.
Qed.

(** X9: [toggle_flight] is its own inverse, and it switches the current
    speed between the walking speed and the flying speed. *)
Theorem toggle_flight_involution (p : Player) :
  toggle_flight (toggle_flight p) = p /\
  flying (toggle_flight p) = negb (flying p) /\
  (flying p = false ->
   current_speed (toggle_flight p) = FLYING_SPEED_IN_BLOCKS_PER_SECOND) /\
  (flying p = true ->
   current_speed (toggle_flight p) = walking_speed_in_blocks_per_second p).
Proof.
  destruct p as [js ws fl asc desc s pos rot vv inv sel].
  unfold toggle_flight, set_flying, current_speed. simpl.
  rewrite negb_involutive.
  repeat split; intros ->; reflexivity.
Qed.

(** X10: [jump] is idempotent: a second call, made before anything else
    changes the vertical velocity, never changes the player again. *)
Theorem jump_idempotent (p : Player) : jump (jump p) = jump p.
Proof.
  unfold jump.
  destruct (Req_dec_T (vertical_velocity_in_blocks_per_second p) 0)
    as [Hz | Hnz].
  - simpl.
    destruct (Req_dec_T (jump_speed_in_blocks_per_second p) 0) as [Hj | Hj];
      [| reflexivity].
    unfold set_vertical_velocity. simpl. reflexivity.
  - destruct (Req_dec_T (vertical_velocity_in_blocks_per_second p) 0);
      [contradiction | reflexivity].
Qed.

(** ** More on the per-tick update *)

Lemma update_position (dt : R) (cc : R * R * R -> Z -> R * R * R)
    (p : Player) :
  position_in_blocks_from_origin (update dt cc p) =
  let '(dx, dy, dz) := get_motion_vector p in
  let '(x, y, z) := position_in_blocks_from_origin p in
  let d := dt * current_speed p in
  cc (x + dx * d,
      y + (dy * d +
           (if flying p
            then ((if ascend p then 1 else 0) - (if descend p then 1 else 0))
                 * dt * FLYING_SPEED_IN_BLOCKS_PER_SECOND
            else vertical_velocity_in_blocks_per_second (update dt cc p)
                 * dt)),
      z + dz * d) PLAYER_HEIGHT_IN_BLOCKS.
Proof.
  rewrite update_vertical_velocity. unfold update.
  destruct (get_motion_vector p) as [[dx dy] dz].
  destruct (flying p); simpl;
    destruct (position_in_blocks_from_origin p) as [[x y] z]; simpl;
    f_equal; f_equal; try f_equal; lra.
Qed.

(** X13: falling only ever gets faster, down to the terminal velocity:
    for a player that is not flying and a step [dt > 0], the vertical
    velocity after [update] is strictly below the old one when that was
    above [- MAX_FALL_SPEED], and is exactly [- MAX_FALL_SPEED] when the
    old one was at or below it. *)
Theorem update_falls_to_terminal_velocity (dt : R)
    (cc : R * R * R -> Z -> R * R * R) (p : Player) :
  flying p = false ->
  0 < dt ->
  (- MAX_FALL_SPEED_IN_BLOCKS_PER_SECOND <
   vertical_velocity_in_blocks_per_second p ->
   vertical_velocity_in_blocks_per_second (update dt cc p) <
   vertical_velocity_in_blocks_per_second p) /\
  (vertical_velocity_in_blocks_per_second p <=
   - MAX_FALL_SPEED_IN_BLOCKS_PER_SECOND ->
   vertical_velocity_in_blocks_per_second (update dt cc p) =
   - MAX_FALL_SPEED_IN_BLOCKS_PER_SECOND).
Proof.
  intros Hfly Hdt.
  rewrite update_vertical_velocity, Hfly.
  unfold Py.max, GRAVITY_IN_BLOCKS_PER_SECOND_SQUARED,
    MAX_FALL_SPEED_IN_BLOCKS_PER_SECOND.
  split; intros Hv; decide_comparisons.
Qed.

Lemma update_falls_to_terminal_velocity_witness :
  flying initial = false /\ 0 < 1 /\
  vertical_velocity_in_blocks_per_second (update 1 no_collision initial) <
  vertical_velocity_in_blocks_per_second initial.
Proof.
  split; [reflexivity |]. split; [lra |].
  apply (update_falls_to_terminal_velocity 1 no_collision initial);
    [reflexivity | lra |].
  unfold MAX_FALL_SPEED_IN_BLOCKS_PER_SECOND. simpl. lra.
Defined.

(** X14: for a player that is not flying and stands or falls (vertical
    velocity at most 0) and a step [dt > 0], the vertical velocity after
    [update] is negative, so a [jump] right after that update has no
    effect. *)
Theorem jump_after_update_no_effect (dt : R)
    (cc : R * R * R -> Z -> R * R * R) (p : Player) :
  flying p = false ->
  0 < dt ->
  vertical_velocity_in_blocks_per_second p <= 0 ->
  vertical_velocity_in_blocks_per_second (update dt cc p) < 0 /\
  jump (update dt cc p) = update dt cc p.
Proof.
  intros Hfly Hdt Hv.
  assert (Hneg : vertical_velocity_in_blocks_per_second (update dt cc p) < 0).
  { rewrite update_vertical_velocity, Hfly.
    unfold Py.max, GRAVITY_IN_BLOCKS_PER_SECOND_SQUARED,
      MAX_FALL_SPEED_IN_BLOCKS_PER_SECOND.
    decide_comparisons. }
  split; [exact Hneg |].
  unfold jump.
  destruct (Req_dec_T
              (vertical_velocity_in_blocks_per_second (update dt cc p)) 0);
    [lra | reflexivity].
Qed.

Lemma jump_after_update_no_effect_witness :
  flying initial = false /\ 0 < 1 /\
  vertical_velocity_in_blocks_per_second initial <= 0 /\
  jump (update 1 no_collision initial) = update 1 no_collision initial.
Proof.
  split; [reflexivity |]. split; [lra |]. split; [simpl; lra |].
  apply (jump_after_update_no_effect 1 no_collision initial);
    [reflexivity | lra | simpl; lra].
Defined.

(** X16: in a world without blocks, a player without strafe intent keeps
    its x and z: on the ground it only falls, in flight it rises or sinks
    at the flying speed as [ascend] and [descend] say, and hovers in place
    when both or neither are set. *)
Theorem update_without_strafe (dt : R) (p : Player) (x y z : R) :
  strafe_unit_vector p = (0, 0)%Z ->
  position_in_blocks_from_origin p = (x, y, z) ->
  position_in_blocks_from_origin (update dt no_collision p) =
  (x,
   y + (if flying p
        then ((if ascend p then 1 else 0) - (if descend p then 1 else 0))
             * dt * FLYING_SPEED_IN_BLOCKS_PER_SECOND
        else vertical_velocity_in_blocks_per_second
               (update dt no_collision p) * dt),
   z) /\
  (flying p = true -> ascend p = descend p ->
   position_in_blocks_from_origin (update dt no_collision p) = (x, y, z)).
Proof.
  intros Hs Hpos.
  rewrite update_position. unfold get_motion_vector, no_collision.
  rewrite Hs, Hpos. simpl.
  split.
  - f_equal; [f_equal |]; lra.
  - intros -> Hasc. rewrite Hasc.
    destruct (descend p); f_equal; try f_equal; lra.
Qed.

Lemma update_without_strafe_witness :
  strafe_unit_vector (toggle_flight initial) = (0, 0)%Z /\
  position_in_blocks_from_origin (toggle_flight initial) = (0, 0, 0) /\
  position_in_blocks_from_origin
    (update 1 no_collision (toggle_flight initial)) = (0, 0, 0).
Proof.
  split; [reflexivity |]. split; [reflexivity |].
  apply (update_without_strafe 1 (toggle_flight initial) 0 0 0);
    reflexivity.
Defined.

(** ** Selecting the active item *)

Lemma select_active_item_nonempty (index : Z) (p : Player) :
  inventory p <> [] ->
  exists block : Block,
    nth_error (inventory p)
      (Z.to_nat (index mod Z.of_nat (length (inventory p)))) = Some block /\
    select_active_item index p = Selected (set_selected_block block p).
Proof.
  intros Hne. unfold select_active_item.
  destruct (length (inventory p)) as [| n] eqn:Hlen.
  - destruct (inventory p); [contradiction | discriminate].
  - set (len := Z.of_nat (S n)).
    assert (Hpos : (0 < len)%Z) by (unfold len; lia).
    pose proof (Z.mod_pos_bound index len Hpos) as [Hlo Hhi].
    destruct (Z.ltb_spec (index mod len) (- len)) as [Hbad | _]; [lia |].
    destruct (Z.ltb_spec (index mod len) 0) as [Hbad | _]; [lia |].
    destruct (nth_error (inventory p) (Z.to_nat (index mod len)))
      as [block |] eqn:Hnth.
    + exists block. split; reflexivity.
    + apply nth_error_None in Hnth. rewrite Hlen in Hnth.
      unfold len in *. lia.
Qed.

(** X18: [select_active_item] raises [ZeroDivisionError] exactly when the
    inventory is empty; otherwise it returns for every index, negative or
    beyond the end, never raises [IndexError], changes nothing but the
    selected block, and the block it selects is one of the inventory. *)
Theorem select_active_item_total (index : Z) (p : Player) :
  (inventory p = [] -> select_active_item index p = ZeroDivisionError) /\
  (inventory p <> [] ->
   exists block : Block,
     In block (inventory p) /\
     select_active_item index p = Selected (set_selected_block block p)) /\
  select_active_item index p <> IndexError.
Proof.
  split; [| split].
  - intros Hnil. unfold select_active_item. rewrite Hnil. reflexivity.
  - intros Hne.
    destruct (select_active_item_nonempty index p Hne) as [b [Hnth Hsel]].
    exists b. split; [| exact Hsel]. eapply nth_error_In. exact Hnth.
  - destruct (inventory p) as [| b0 rest] eqn:Hinv.
    + unfold select_active_item. rewrite Hinv. simpl. discriminate.
    + assert (Hne : inventory p <> []) by (rewrite Hinv; discriminate).
      destruct (select_active_item_nonempty index p Hne) as [b [_ Hsel]].
      rewrite Hsel. discriminate.
Qed.

(** X19: [select_active_item] is periodic in the index, with the length of
    the inventory as period: adding any multiple of the length to the
    index gives the same result. *)
Theorem select_active_item_periodic (index k : Z) (p : Player) :
  select_active_item (index + k * Z.of_nat (length (inventory p))) p =
  select_active_item index p.
Proof.
  unfold select_active_item.
  destruct (length (inventory p)) as [| n] eqn:Hlen; [reflexivity |].
  rewrite Z.mod_add by lia. reflexivity.
Qed.

(** X20: an index within the inventory selects the block at that place,
    and the same index counted from the end (the index minus the length,
    so -1 for the last block) selects the same block. *)
Theorem select_active_item_by_index (index : Z) (block : Block)
    (p : Player) :
  (0 <= index)%Z ->
  nth_error (inventory p) (Z.to_nat index) = Some block ->
  select_active_item index p = Selected (set_selected_block block p) /\
  select_active_item (index - Z.of_nat (length (inventory p))) p =
  Selected (set_selected_block block p).
Proof.
  intros Hlo Hnth.
  assert (Hhi : (index < Z.of_nat (length (inventory p)))%Z).
  { assert (Hlt : (Z.to_nat index < length (inventory p))%nat).
    { apply nth_error_Some. rewrite Hnth. discriminate. }
    lia. }
  assert (Hne : inventory p <> []).
  { intros Hnil. rewrite Hnil in Hhi. simpl in Hhi. lia. }
  assert (Hsel : select_active_item index p =
                 Selected (set_selected_block block p)).
  { destruct (select_active_item_nonempty index p Hne) as [b [Hb Hsel]].
    rewrite Z.mod_small in Hb by lia.
    rewrite Hnth in Hb. injection Hb as <-. exact Hsel. }
  split; [exact Hsel |].
  rewrite <- Hsel.
  replace (index - Z.of_nat (length (inventory p)))%Z
    with (index + (-1) * Z.of_nat (length (inventory p)))%Z by lia.
  unfold select_active_item.
  destruct (length (inventory p)) as [| n] eqn:Hlen; [reflexivity |].
  rewrite Z.mod_add by lia. reflexivity.
Qed.

Lemma select_active_item_by_index_witness :
  (0 <= 6)%Z /\
  select_active_item (-1) initial =
  Selected (set_selected_block DARK_CLOUD initial).
Proof.
  split; [lia |].
  apply (select_active_item_by_index 6 DARK_CLOUD initial);
    [lia | reflexivity].
Defined.

(** ** More on sight adjustment *)

Lemma clamp_pitch_range (y : R) :
  -90 <= Py.max (-90) (Py.min 90 y) <= 90.
Proof. unfold Py.max, Py.min. split; decide_comparisons. Qed.

(** X21: after [adjust_sight] the pitch lies in [[-90, 90]], whatever the
    mouse movement and whatever the pitch was before; a movement that
    stays inside the range is applied in full, at 0.15 degrees per unit. *)
Theorem adjust_sight_pitch_in_range (dx dy : Z) (p : Player) :
  -90 <= snd (rotation_in_degrees (adjust_sight dx dy p)) <= 90 /\
  (-90 <= IZR dy * 0.15 + snd (rotation_in_degrees p) <= 90 ->
   snd (rotation_in_degrees (adjust_sight dx dy p)) =
   IZR dy * 0.15 + snd (rotation_in_degrees p)).
Proof.
  rewrite adjust_sight_rotation. simpl. split.
  - apply clamp_pitch_range.
  - intros H. apply clamp_pitch_inside. exact H.
Qed.

(** X23: after [adjust_sight] the horizontal part of the sight vector is a
    multiple [m] of the yaw direction with [0 <= m <= 1]: clamping the pitch
    keeps the view from flipping over backwards. *)
Theorem sight_vector_after_adjust_sight (dx dy : Z) (p : Player) :
  let q := adjust_sight dx dy p in
  let yaw := fst (rotation_in_degrees q) in
  exists m : R,
    0 <= m <= 1 /\
    fst (fst (get_sight_vector q)) = cos (Py.radians (yaw - 90)) * m /\
    snd (get_sight_vector q) = sin (Py.radians (yaw - 90)) * m.
Proof.
  intros q yaw.
  pose proof (clamp_pitch_range
                (IZR dy * 0.15 + snd (rotation_in_degrees p))) as Hr.
  assert (Hq : rotation_in_degrees q =
               (yaw, Py.max (-90)
                       (Py.min 90
                          (IZR dy * 0.15 + snd (rotation_in_degrees p))))).
  { unfold yaw, q. rewrite adjust_sight_rotation. reflexivity. }
  unfold get_sight_vector. rewrite Hq.
  set (pitch := Py.max _ _) in *.
  exists (cos (Py.radians pitch)). split; [| split; reflexivity].
  split.
  - apply cos_ge_0; unfold Py.radians; pose proof PI_RGT_0; nra.
  - pose proof (COS_bound (Py.radians pitch)). lra.
Qed.

(** ** More on the speed calls *)

(** X24: [slow_walking_speed] cannot be applied twice in a row: whether
    the first call returned (leaving 5/3) or raised, an immediately
    following call raises. *)
Theorem slow_walking_speed_twice_raises (p : Player) :
  raises (slow_walking_speed (state_of (slow_walking_speed p))).
Proof.
  destruct (Req_dec_T (walking_speed_in_blocks_per_second p) 5) as [He | Hne].
  - rewrite (slow_walking_speed_at_5 p He). simpl.
    rewrite slow_walking_speed_not_5; [exact I |]. simpl. lra.
  - rewrite (slow_walking_speed_not_5 p Hne). simpl.
    rewrite (slow_walking_speed_not_5 p Hne). exact I.
Qed.

(** X25: [reset_walking_speed] makes [slow_walking_speed] applicable
    again: after a reset the slow call returns with walking speed 5/3,
    whatever the speed was before, and a reset after that restores 5. *)
Theorem reset_enables_slow_walking_speed (p : Player) :
  slow_walking_speed (reset_walking_speed p) =
  Returned (set_walking_speed (5 / 3) p) /\
  walking_speed_in_blocks_per_second
    (reset_walking_speed
       (state_of (slow_walking_speed (reset_walking_speed p)))) = 5.
Proof.
  assert (H : slow_walking_speed (reset_walking_speed p) =
              Returned (set_walking_speed (5 / 3) p)).
  { rewrite slow_walking_speed_at_5 by reflexivity. reflexivity. }
  split; [exact H |]. rewrite H. reflexivity.
Qed.

Lemma stepping_on_ladder (p : Player) :
  reachable stepping_call p ->
  walking_speed_in_blocks_per_second p = 5 \/
  walking_speed_in_blocks_per_second p = 10 \/
  walking_speed_in_blocks_per_second p = 15 \/
  walking_speed_in_blocks_per_second p = 20.
Proof.
  induction 1 as [| c p Hc _ IH].
  - left. reflexivity.
  - destruct c; simpl in Hc; try discriminate; simpl.
    + rewrite increase_walk_speed_value.
      destruct (Rle_dec (walking_speed_in_blocks_per_second p) 15); lra.
    + rewrite decrease_walk_speed_value.
      destruct (Rgt_dec (walking_speed_in_blocks_per_second p) 5); lra.
    + left. reflexivity.
Qed.

(** X26: under any sequence of [increase_walk_speed],
    [decrease_walk_speed] and [reset_walking_speed] calls on a fresh player
    the walking speed is one of 5, 10, 15 and 20; so it stays within
    [[MIN_SPEED, MAX_SPEED + 5]]. *)
Theorem walk_speed_ladder (p : Player) :
  reachable stepping_call p ->
  (walking_speed_in_blocks_per_second p = 5 \/
   walking_speed_in_blocks_per_second p = 10 \/
   walking_speed_in_blocks_per_second p = 15 \/
   walking_speed_in_blocks_per_second p = 20) /\
  MIN_SPEED_IN_BLOCKS_PER_SECOND <= walking_speed_in_blocks_per_second p
  <= MAX_SPEED_IN_BLOCKS_PER_SECOND + 5.
Proof.
  intros Hr. pose proof (stepping_on_ladder p Hr) as H.
  split; [exact H |].
  unfold MIN_SPEED_IN_BLOCKS_PER_SECOND, MAX_SPEED_IN_BLOCKS_PER_SECOND.
  lra.
Qed.

Lemma walk_speed_ladder_witness :
  reachable stepping_call (decrease_walk_speed (increase_walk_speed initial))
  /\
  MIN_SPEED_IN_BLOCKS_PER_SECOND <=
  walking_speed_in_blocks_per_second
    (decrease_walk_speed (increase_walk_speed initial))
  <= MAX_SPEED_IN_BLOCKS_PER_SECOND + 5.
Proof.
  assert (Hr : reachable stepping_call
                 (decrease_walk_speed (increase_walk_speed initial))).
  { apply (reachable_call stepping_call DecreaseWalkSpeed); [reflexivity |].
    apply (reachable_call stepping_call IncreaseWalkSpeed); [reflexivity |].
    apply reachable_initial. }
  split; [exact Hr |].
  apply (walk_speed_ladder
           (decrease_walk_speed (increase_walk_speed initial)) Hr).
Defined.

(** X27: on every state that [increase_walk_speed],
    [decrease_walk_speed] and [reset_walking_speed] calls can bring a fresh
    player to, [decrease_walk_speed] undoes [increase_walk_speed] as long
    as the walking speed is at most 15, and [increase_walk_speed] undoes
    [decrease_walk_speed] as long as it is above 5; at walking speed 20
    the increase is refused, so the decrease that follows goes down to
    15. *)
Theorem walk_speed_round_trip (p : Player) :
  reachable stepping_call p ->
  (walking_speed_in_blocks_per_second p <= 15 ->
   decrease_walk_speed (increase_walk_speed p) = p) /\
  (5 < walking_speed_in_blocks_per_second p ->
   increase_walk_speed (decrease_walk_speed p) = p) /\
  (walking_speed_in_blocks_per_second p = 20 ->
   walking_speed_in_blocks_per_second
     (decrease_walk_speed (increase_walk_speed p)) = 15).
Proof.
  intros Hr. pose proof (stepping_on_ladder p Hr) as Hl.
  unfold increase_walk_speed, decrease_walk_speed,
    MAX_SPEED_IN_BLOCKS_PER_SECOND, MIN_SPEED_IN_BLOCKS_PER_SECOND,
    WALK_SPEED_IN_BLOCKS_PER_SECOND.
  split; [| split]; intros Hv.
  - destruct (Rle_dec (walking_speed_in_blocks_per_second p) 15); [| lra].
    simpl.
    destruct (Rgt_dec (walking_speed_in_blocks_per_second p + 5) 5); [| lra].
    unfold set_walking_speed. simpl.
    rewrite <- (player_eta p) at 12. f_equal. lra.
  - destruct (Rgt_dec (walking_speed_in_blocks_per_second p) 5); [| lra].
    simpl.
    destruct (Rle_dec (walking_speed_in_blocks_per_second p - 5) 15); [| lra].
    unfold set_walking_speed. simpl.
    rewrite <- (player_eta p) at 12. f_equal. lra.
  - destruct (Rle_dec (walking_speed_in_blocks_per_second p) 15); [lra |].
    destruct (Rgt_dec (walking_speed_in_blocks_per_second p) 5); [| lra].
    simpl. lra.
Qed.

Lemma walk_speed_round_trip_witness :
  reachable stepping_call (increase_walk_speed initial) /\
  walking_speed_in_blocks_per_second (increase_walk_speed initial) <= 15 /\
  decrease_walk_speed (increase_walk_speed (increase_walk_speed initial)) =
  increase_walk_speed initial.
Proof.
  assert (Hr : reachable stepping_call (increase_walk_speed initial)).
  { apply (reachable_call stepping_call IncreaseWalkSpeed); [reflexivity |].
    apply reachable_initial. }
  assert (Hv : walking_speed_in_blocks_per_second (increase_walk_speed initial)
               <= 15).
  { rewrite increase_walk_speed_value. simpl.
    unfold WALK_SPEED_IN_BLOCKS_PER_SECOND.
    destruct (Rle_dec 5 15); lra. }
  split; [exact Hr |]. split; [exact Hv |].
  apply (walk_speed_round_trip (increase_walk_speed initial) Hr). exact Hv.
Defined.

(** ** More on the world boundary *)

(** X28: for a boundary size [b >= 0], [keep_player_within_coordinates]
    is the usual clamp [max (-b) (min d b)]. *)
Theorem keep_player_within_coordinates_is_clamp (d b : R) :
  0 <= b ->
  keep_player_within_coordinates d b = Rmax (- b) (Rmin d b).
Proof.
  intros Hb. unfold keep_player_within_coordinates, Rmax, Rmin.
  decide_comparisons.
Qed.

Lemma keep_player_within_coordinates_is_clamp_witness :
  0 <= 80 /\
  keep_player_within_coordinates (-100) 80 = Rmax (- 80) (Rmin (-100) 80).
Proof.
  split; [lra |].
  apply (keep_player_within_coordinates_is_clamp (-100) 80). lra.
Defined.

(** X29: for a boundary size [b >= 0] the clamp preserves order, never
    moves two coordinates further apart, and commutes with mirroring
    through the origin. *)
Theorem keep_player_within_coordinates_monotone (d1 d2 b : R) :
  0 <= b ->
  (d1 <= d2 ->
   keep_player_within_coordinates d1 b
   <= keep_player_within_coordinates d2 b) /\
  (d1 <= d2 ->
   keep_player_within_coordinates d2 b - keep_player_within_coordinates d1 b
   <= d2 - d1) /\
  keep_player_within_coordinates (- d1) b =
  - keep_player_within_coordinates d1 b.
Proof.
  intros Hb. unfold keep_player_within_coordinates.
  repeat split; try intros Hle; decide_comparisons.
Qed.

Lemma keep_player_within_coordinates_monotone_witness :
  0 <= 80 /\
  keep_player_within_coordinates (- 100) 80 =
  - keep_player_within_coordinates 100 80.
Proof.
  split; [lra |].
  apply (keep_player_within_coordinates_monotone 100 200 80). lra.
Defined.

Lemma keep_player_within_coordinates_fixed (d b : R) :
  - b <= d <= b -> keep_player_within_coordinates d b = d.
Proof. intros H. unfold keep_player_within_coordinates. decide_comparisons. Qed.

Lemma keep_player_within_coordinates_range (d b : R) :
  0 <= b -> - b <= keep_player_within_coordinates d b <= b.
Proof.
  intros H. unfold keep_player_within_coordinates.
  split; decide_comparisons.
Qed.

(** X30: for a world half-width [W >= 0], after
    [check_player_within_world_boundaries] the player's x and z lie in
    [[-W, W]], wherever the collision checker of the preceding [update] put
    it; a player already inside is left exactly as it is, and so a second
    check changes nothing. *)
Theorem check_player_within_world_boundaries_inside (W dt : R)
    (cc : R * R * R -> Z -> R * R * R) (p : Player) :
  0 <= W ->
  let inside (q : Player) :=
    let '(x, _, z) := position_in_blocks_from_origin q in
    - W <= x <= W /\ - W <= z <= W in
  inside (check_player_within_world_boundaries W (update dt cc p)) /\
  (inside p -> check_player_within_world_boundaries W p = p) /\
  check_player_within_world_boundaries W
    (check_player_within_world_boundaries W p) =
  check_player_within_world_boundaries W p.
Proof.
  intros HW inside.
  assert (Hin : forall q, inside (check_player_within_world_boundaries W q)).
  { intros q. unfold inside, check_player_within_world_boundaries.
    destruct (position_in_blocks_from_origin q) as [[x y] z]. simpl.
    split; apply keep_player_within_coordinates_range; exact HW. }
  assert (Hfix : forall q, inside q ->
                           check_player_within_world_boundaries W q = q).
  { intros q. unfold inside, check_player_within_world_boundaries.
    destruct q as [js ws fl asc desc s [[x y] z] rot vv inv sel]. simpl.
    intros [Hx Hz]. unfold set_position. simpl.
    rewrite !keep_player_within_coordinates_fixed by assumption.
    reflexivity. }
  split; [apply Hin |]. split; [apply Hfix |].
  apply Hfix. apply Hin.
Qed.

Lemma check_player_within_world_boundaries_inside_witness :
  0 <= 80 /\
  check_player_within_world_boundaries 80
    (check_player_within_world_boundaries 80
       (set_position (100, 3, -200) initial)) =
  check_player_within_world_boundaries 80
    (set_position (100, 3, -200) initial).
Proof.
  split; [lra |].
  apply (check_player_within_world_boundaries_inside 80 1 no_collision
           (set_position (100, 3, -200) initial)).
  lra.
Defined.
